(** * sms-app: the beneficiary store and the SMS composer of
      [src/app/page.tsx], as a shallow embedding.

    Strings are [string] (a sequence of bytes; the accented letters of the
    source's literals are their UTF-8 bytes).  A spreadsheet row, the object
    that [XLSX.utils.sheet_to_json] yields, is a [gmap string Cell]: a cell is
    a text, a number, a boolean or [null], whatever the type the source
    declares for it, and looking up a column that is absent gives [None],
    the [undefined] of the source.  React state is an explicit record, and an
    event handler is the list of the state updates and browser calls it
    issues, in program order. *)

From Stdlib Require Import ZArith Ascii String Lia.
From stdpp Require Import gmap strings list pretty.

Local Open Scope Z_scope.
Local Open Scope nat_scope.

(** ** Cells *)

(** The values [sheet_to_json] puts in a row.  The type argument of line 35,
    [Record<string, string>], is erased when the page runs: a cell that was
    typed as a number or a boolean in the sheet arrives as one.  The page
    never computes with a number: it tests it in a [||] and it prints it, so
    a number is kept as its text [String(n)]; 0 and -0 print as "0". *)
Inductive Cell :=
| Str (s : string)
| Num (text : string)
| Bool (b : bool)
| Null.

(** [String(c)], what a template literal makes of a value. *)
Definition cell_text (c : Cell) : string :=
  match c with
  | Str s => s
  | Num text => text
  | Bool true => "true"
  | Bool false => "false"
  | Null => "null"
  end.

(** ** JavaScript values and strings *)

Module Js.

(** The line feed of a template literal's [\n]. *)
Definition LF : ascii := ascii_of_nat 10.

Definition is_upper (c : ascii) : bool :=
  let n := nat_of_ascii c in (65 <=? n)%nat && (n <=? 90)%nat.

Definition lower_char (c : ascii) : ascii :=
  if is_upper c then ascii_of_nat (nat_of_ascii c + 32) else c.

(** [String.prototype.toLowerCase], on the ASCII letters.  The source only
    compares its result with the ASCII literal ['virement']; a byte outside
    [A-Z] is left as it is, and no string with a character outside ASCII
    lowers to that literal, so the comparison is decided as in the source. *)
Fixpoint toLowerCase (s : string) : string :=
  match s with
  | EmptyString => EmptyString
  | String c s' => String (lower_char c) (toLowerCase s')
  end.

(** Truthiness: the empty string, the numbers 0 and NaN, [false], [null]
    and [undefined] are falsy, every other value is truthy. *)
Definition cell_truthy (c : Cell) : bool :=
  match c with
  | Str s => negb (String.eqb s "")
  | Num text => negb (String.eqb text "0") && negb (String.eqb text "NaN")
  | Bool b => b
  | Null => false
  end.

Definition truthy (v : option Cell) : bool :=
  match v with
  | Some c => cell_truthy c
  | None => false
  end.

(** [a || b]: the left operand when it is truthy, else the right one. *)
Definition or (a b : option Cell) : option Cell :=
  if truthy a then a else b.

(** [a || 'lit']: the same, where the right operand is a string literal, so
    that the whole expression is never [undefined]. *)
Definition or_str (a : option Cell) (d : string) : Cell :=
  match or a (Some (Str d)) with
  | Some c => c
  | None => Str d
  end.

(** [a || undefined]. *)
Definition or_undefined (a : option Cell) : option Cell :=
  or a None.

(** [v.toLowerCase()]: a string has the method; on a number, a boolean or
    [null] the call throws a [TypeError], which is [None]. *)
Definition call_toLowerCase (v : Cell) : option string :=
  match v with
  | Str s => Some (toLowerCase s)
  | _ => None
  end.

(** [s.includes(t)], spelled out: [sub] occurs in [s] at some offset. *)
Fixpoint includes (s sub : string) : bool :=
  String.prefix sub s ||
  match s with
  | EmptyString => false
  | String _ s' => includes s' sub
  end.

(** [s.endsWith(t)]. *)
Fixpoint endsWith (s sub : string) : bool :=
  String.eqb s sub ||
  match s with
  | EmptyString => false
  | String _ s' => endsWith s' sub
  end.

End Js.

Infix "|||" := Js.or (at level 50, left associativity).

(** ** The data model (page.tsx, lines 8-14) *)

Inductive PaymentMethod := cash | transfer.

Record Beneficiary := mkBeneficiary {
  name : string;
  phone : string;
  reference : string;
  paymentMethod : PaymentMethod;
  accountNumber : option string
}.

(** One row of the first sheet. *)
Abbreviation Row := (gmap string Cell).

(** ** Spreadsheet rows to beneficiaries (page.tsx, lines 37-43) *)

(** The callback of [jsonData.map]: the beneficiary of a row, or [None] when
    line 41 throws.  A truthy cell that is not a text is put in the record as
    it is; the composer and the console line only print a field, so the
    record here holds its text. *)
Definition mapRow (row : Row) : option Beneficiary :=
  match Js.call_toLowerCase (Js.or_str (row !! "Méthode" ||| row !! "Mode") "cash") with
  | None => None
  | Some mode =>
      Some
        {| name :=
             cell_text (Js.or_str (row !! "Nom" ||| row !! "Bénéficiaire" ||| row !! "Name") "");
           phone :=
             cell_text (Js.or_str (row !! "Téléphone" ||| row !! "Phone" ||| row !! "Numéro") "");
           reference :=
             cell_text
               (Js.or_str (row !! "Référence" ||| row !! "Bulletin" ||| row !! "Reference") "");
           paymentMethod := if String.eqb mode "virement" then transfer else cash;
           accountNumber :=
             option_map cell_text (Js.or_undefined (row !! "Compte" ||| row !! "IBAN")) |}
  end.

(** ** The message template (page.tsx, lines 65-71) *)

Definition treasury_line : string := "Vous pouvez passer à la trésorerie.".
Definition transfer_line : string := "Le virement a été effectué sur votre compte.".

(** [baseMessage], with the payment date the component holds. *)
Definition baseMessage (notificationDate : string) (beneficiary : Beneficiary) : string :=
  "Bonjour " +:+ name beneficiary +:+
  String Js.LF ("Votre bon de commande " +:+ reference beneficiary +:+
                " sera payé le " +:+ notificationDate +:+ ".").

Definition generateSMSMessage (notificationDate : string) (beneficiary : Beneficiary)
  : string :=
  match paymentMethod beneficiary with
  | cash => baseMessage notificationDate beneficiary +:+ String Js.LF treasury_line
  | transfer => baseMessage notificationDate beneficiary +:+ String Js.LF transfer_line
  end.

(** ** Component state and handlers *)

(** The four [useState] cells of [SMSNotificationApp] (lines 17-20), with what
    the handlers show outside the component: the [alert] boxes and the
    console lines, oldest first. *)
Record State := mkState {
  beneficiaries : list Beneficiary;
  notificationDate : string;
  isSending : bool;
  successMessage : option string;
  alerts : list string;
  console : list string
}.

(** What a handler does, one call at a time.  [setBeneficiaries] is called
    both with a value ([setBeneficiaries([])]) and with an updater
    ([setBeneficiaries(prev => ...)]). *)
Inductive Action :=
| setBeneficiaries (v : list Beneficiary)
| updateBeneficiaries (f : list Beneficiary → list Beneficiary)
| setNotificationDate (d : string)
| setIsSending (b : bool)
| setSuccessMessage (m : option string)
| alert (msg : string)
| console_log (line : string)
| sleep (ms : nat).

Definition step (s : State) (a : Action) : State :=
  match a with
  | setBeneficiaries v =>
      mkState v (notificationDate s) (isSending s) (successMessage s) (alerts s) (console s)
  | updateBeneficiaries f =>
      mkState (f (beneficiaries s)) (notificationDate s) (isSending s) (successMessage s)
              (alerts s) (console s)
  | setNotificationDate d =>
      mkState (beneficiaries s) d (isSending s) (successMessage s) (alerts s) (console s)
  | setIsSending b =>
      mkState (beneficiaries s) (notificationDate s) b (successMessage s) (alerts s)
              (console s)
  | setSuccessMessage m =>
      mkState (beneficiaries s) (notificationDate s) (isSending s) m (alerts s) (console s)
  | alert msg =>
      mkState (beneficiaries s) (notificationDate s) (isSending s) (successMessage s)
              (alerts s ++ [msg]) (console s)
  | console_log line =>
      mkState (beneficiaries s) (notificationDate s) (isSending s) (successMessage s)
              (alerts s) (console s ++ [line])
  | sleep _ => s
  end.

(** The state after a handler's calls, and every state on the way. *)
Definition run (acts : list Action) (s : State) : State := fold_left step acts s.

Fixpoint trace (acts : list Action) (s : State) : list State :=
  match acts with
  | [] => []
  | a :: acts' => step s a :: trace acts' (step s a)
  end.

(** [Array.prototype.filter], whose callback also receives the position. *)
Fixpoint filter_from {A} (f : A → nat → bool) (i : nat) (l : list A) : list A :=
  match l with
  | [] => []
  | x :: l' => if f x i then x :: filter_from f (S i) l' else filter_from f (S i) l'
  end.

Definition Array_filter {A} (f : A → nat → bool) (l : list A) : list A :=
  filter_from f 0 l.

(** Lines 37-49, the [try] from the parsed sheet on, with its [catch]: the
    store's [importRows].  [jsonData.map] calls [mapRow] on the rows in
    order and throws as soon as one call throws, before any state is set. *)
Definition importRows (jsonData : list Row) : list Action :=
  match mapM mapRow jsonData with
  | Some newBeneficiaries =>
      [ updateBeneficiaries (λ prev, prev ++ newBeneficiaries);
        setSuccessMessage
          (Some (pretty (List.length newBeneficiaries) +:+
                 " bénéficiaires ajoutés depuis le fichier")) ]
  | None => [ alert "Erreur lors de la lecture du fichier. Vérifiez le format." ]
  end.

Section Upload.

(** The chosen file, and [XLSX.read] followed by [sheet_to_json] on the
    first sheet (lines 32-35): the rows, or [None] when the library
    throws. *)
Variable File : Type.
Variable sheet_to_json : File → option (list Row).

(** [reader.onload] (lines 30-50). *)
Definition reader_onload (file : File) : list Action :=
  match sheet_to_json file with
  | Some jsonData => importRows jsonData
  | None => [ alert "Erreur lors de la lecture du fichier. Vérifiez le format." ]
  end.

(** [handleFileUpload] (lines 24-52), with the read it starts. *)
Definition handleFileUpload (files : option File) : list Action :=
  match files with
  | None => []
  | Some file => setSuccessMessage None :: reader_onload file
  end.

End Upload.

Arguments reader_onload {File} sheet_to_json file.
Arguments handleFileUpload {File} sheet_to_json files.

(** [addManualEntry] (lines 54-58); the reset of the form touches the DOM
    only. *)
Definition addManualEntry (data : Beneficiary) : list Action :=
  [ updateBeneficiaries (λ prev, prev ++ [data]);
    setSuccessMessage (Some "Bénéficiaire ajouté avec succès") ].

(** [removeBeneficiary] (lines 60-63).  The positions of an array are
    non-negative integers; [index] is any integer. *)
Definition removeBeneficiary (index : Z) : list Action :=
  [ updateBeneficiaries (Array_filter (λ _ i, negb (Z.of_nat i =? index)%Z));
    setSuccessMessage (Some "Bénéficiaire supprimé") ].

(** The two "Tout effacer" buttons (lines 191 and 272): the store's [clear]. *)
Definition clearAll : list Action := [ setBeneficiaries [] ].

(** [sendNotifications] (lines 73-95), run from the state [s] of the render
    that created it.  Nothing in its [try] block throws (a timer and
    [console.log]), so the [finally] follows the success path. *)
Definition sendNotifications (s : State) : list Action :=
  if (List.length (beneficiaries s) =? 0)%nat then []
  else
    [ setIsSending true; setSuccessMessage None; sleep 1500 ] ++
    map (λ beneficiary,
           console_log ("Sending SMS to " +:+ phone beneficiary +:+ ": " +:+
                        generateSMSMessage (notificationDate s) beneficiary))
        (beneficiaries s) ++
    [ setSuccessMessage
        (Some ("✅ " +:+ pretty (List.length (beneficiaries s)) +:+
               " notifications envoyées avec succès"));
      setIsSending false ].

(** The state of the first render; [today] is the date of that day. *)
Definition initial (today : string) : State := mkState [] today false None [] [].

(** ** Vocabulary of the properties *)

(** [sub] occurs in [s]: the words of "contains the substring". *)
Definition Occurs (sub s : string) : Prop := ∃ pre post, s = pre +:+ sub +:+ post.

Fixpoint has_char (c : ascii) (s : string) : bool :=
  match s with
  | EmptyString => false
  | String c' s' => Ascii.eqb c c' || has_char c s'
  end.

(** The claim as the specification words it, for one beneficiary and one
    date. *)
Definition closing_line_as_claimed (b : Beneficiary) (d : string) : Prop :=
  (paymentMethod b = cash →
     Js.includes (generateSMSMessage d b) treasury_line = true ∧
     Js.includes (generateSMSMessage d b) transfer_line = false) ∧
  (paymentMethod b = transfer →
     Js.includes (generateSMSMessage d b) transfer_line = true ∧
     Js.includes (generateSMSMessage d b) treasury_line = false).

(** A beneficiary paid in cash whose name is the sentence of the transfer
    line. *)
Definition homonym : Beneficiary :=
  mkBeneficiary transfer_line "0600" "B1" cash None.

(** The two rows of the specification's scenario. *)

Definition ali : Row :=
  <["Nom" := Str "Ali"]> (<["Téléphone" := Str "0600"]> (<["Référence" := Str "B1"]>
    (<["Mode" := Str "virement"]> ∅))).

Definition sara : Row :=
  <["Name" := Str "Sara"]> (<["Phone" := Str "0611"]> (<["Reference" := Str "B2"]> ∅)).

(** The alias lists of [mapRow], in the order the source tries them. *)
Definition name_aliases : list string := ["Nom"; "Bénéficiaire"; "Name"].
Definition phone_aliases : list string := ["Téléphone"; "Phone"; "Numéro"].
Definition reference_aliases : list string := ["Référence"; "Bulletin"; "Reference"].
Definition mode_aliases : list string := ["Méthode"; "Mode"].

(** The specification's reading of a field: the value of the first alias
    that the row has as a column ("the first ... found"), else the
    default. *)
Fixpoint first_found (row : Row) (aliases : list string) (default : string) : Cell :=
  match aliases with
  | [] => Str default
  | k :: aliases' =>
      match row !! k with
      | Some v => v
      | None => first_found row aliases' default
      end
  end.

(** The value of the first alias whose cell is there and is truthy (not the
    empty string, not 0, not [false], not [null]), else the default. *)
Fixpoint first_filled (row : Row) (aliases : list string) (default : string) : Cell :=
  match aliases with
  | [] => Str default
  | k :: aliases' =>
      match row !! k with
      | Some v => if Js.cell_truthy v then v else first_filled row aliases' default
      | None => first_filled row aliases' default
      end
  end.

(** Equality of strings up to the case of the ASCII letters, character by
    character: two characters agree when they are the same, or when one is a
    capital letter and the other one its small letter. *)
Definition same_letter (c d : ascii) : bool :=
  Ascii.eqb c d
  || (Js.is_upper c && Ascii.eqb (ascii_of_nat (nat_of_ascii c + 32)) d)
  || (Js.is_upper d && Ascii.eqb c (ascii_of_nat (nat_of_ascii d + 32))).

Fixpoint eq_ignore_case (s t : string) : bool :=
  match s, t with
  | EmptyString, EmptyString => true
  | String c s', String d t' => same_letter c d && eq_ignore_case s' t'
  | _, _ => false
  end.

Definition all_ascii : list ascii := map ascii_of_nat (seq 0 256).

(** C1 as the specification words it, for one row. *)
Definition mapRow_as_claimed (row : Row) : Prop :=
  ∃ b, mapRow row = Some b ∧
       name b = cell_text (first_found row name_aliases "") ∧
       phone b = cell_text (first_found row phone_aliases "") ∧
       reference b = cell_text (first_found row reference_aliases "") ∧
       (paymentMethod b = transfer ↔
        eq_ignore_case (cell_text (first_found row mode_aliases "cash")) "virement" = true).

(** A row whose "Nom" cell holds the empty string and whose "Name" cell
    holds a name. *)
Definition blank_nom : Row := <["Nom" := Str ""]> (<["Name" := Str "Sara"]> ∅).

(** A row whose "Mode" cell is the number 1. *)
Definition numeric_mode : Row := <["Nom" := Str "Ali"]> (<["Mode" := Num "1"]> ∅).

(** C5 as the specification words it, for one sheet and one state: one
    record more per row. *)
Definition importRows_as_claimed (rows : list Row) (s : State) : Prop :=
  List.length (beneficiaries (run (importRows rows) s)) =
  List.length (beneficiaries s) + List.length rows.

(** The mode of a row, as line 41 resolves it, is a text. *)
Definition mode_is_text (row : Row) : Prop :=
  ∃ mode, first_filled row mode_aliases "cash" = Str mode.

(** The invariant of the data model: the three required fields are not
    empty. *)
Definition required_filled (b : Beneficiary) : Prop :=
  name b ≠ "" ∧ phone b ≠ "" ∧ reference b ≠ "".

Definition store_ok (s : State) : Prop := Forall required_filled (beneficiaries s).

(** A sheet reader for the examples: a file is its list of rows, and the
    file with no row at all stands for one the library cannot read. *)
Definition toy_sheet_to_json (file : list Row) : option (list Row) :=
  match file with
  | [] => None
  | _ => Some file
  end.

Definition two_records : State :=
  mkState [ mkBeneficiary "Ali" "0600" "B1" transfer None;
            mkBeneficiary "Sara" "0611" "B2" cash None ]
          "2024-01-01" false None [] [].

(** A row with a name and nothing else. *)
Definition name_only : Row := <["Nom" := Str "Ali"]> ∅.

(** ** The manual entry form (page.tsx, lines 313-418) *)

(** What the form holds when it is submitted: the three inputs that
    [FormData] reads by name, and the two [useState] cells of the component,
    the chosen payment method and the text of the account input. *)
Record ManualEntryForm := mkForm {
  input_name : string;
  input_phone : string;
  input_reference : string;
  form_paymentMethod : PaymentMethod;
  form_accountNumber : string
}.

(** [handleSubmit] (lines 318-329). *)
Definition handleSubmit (onSubmit : Beneficiary → list Action) (form : ManualEntryForm)
  : list Action :=
  let data :=
    {| name := input_name form;
       phone := input_phone form;
       reference := input_reference form;
       paymentMethod := form_paymentMethod form;
       accountNumber :=
         match form_paymentMethod form with
         | transfer => Some (form_accountNumber form)
         | cash => None
         end |} in
  onSubmit data.

(** The [required] inputs (lines 338, 350, 361 and 401): the browser holds
    the submit event back while one of them is empty.  The account input is
    only there when the method is [transfer] (line 394). *)
Definition inputs_valid (form : ManualEntryForm) : bool :=
  negb (String.eqb (input_name form) "")
  && negb (String.eqb (input_phone form) "")
  && negb (String.eqb (input_reference form) "")
  && match form_paymentMethod form with
     | transfer => negb (String.eqb (form_accountNumber form) "")
     | cash => true
     end.

(** A click on "Ajouter le bénéficiaire", with [onSubmit={addManualEntry}]
    (line 154). *)
Definition submitForm (form : ManualEntryForm) : list Action :=
  if inputs_valid form then handleSubmit addManualEntry form else [].

(** ** What the page shows (page.tsx, line 283) *)

(** The [disabled] attribute of the send button. *)
Definition sendDisabled (s : State) : bool :=
  (List.length (beneficiaries s) =? 0)%nat || isSending s.

(** ** More vocabulary *)

Definition account_aliases : list string := ["Compte"; "IBAN"].

(** Every column name that [mapRow] looks at. *)
Definition recognised_columns : list string :=
  name_aliases ++ phone_aliases ++ reference_aliases ++ mode_aliases ++ account_aliases.

(** The record of a row in which [mapRow] finds nothing. *)
Definition blank_record : Beneficiary := mkBeneficiary "" "" "" cash None.

(** The rule of the form: a transfer comes with an account number that is
    not empty, cash with none. *)
Definition account_ok (b : Beneficiary) : Prop :=
  match paymentMethod b with
  | transfer => ∃ a, accountNumber b = Some a ∧ a ≠ ""
  | cash => accountNumber b = None
  end.

Definition manual_ok (b : Beneficiary) : Prop := required_filled b ∧ account_ok b.

(** What a user can do without a spreadsheet. *)
Inductive ManualEvent :=
| Submit (form : ManualEntryForm)
| Remove (index : Z)
| Clear.

Definition manual_actions (e : ManualEvent) : list Action :=
  match e with
  | Submit form => submitForm form
  | Remove index => removeBeneficiary index
  | Clear => clearAll
  end.

Definition play (events : list ManualEvent) (s : State) : State :=
  fold_left (λ s e, run (manual_actions e) s) events s.

(** The line that [sendNotifications] logs for a beneficiary. *)
Definition sms_line (date : string) (b : Beneficiary) : string :=
  "Sending SMS to " +:+ phone b +:+ ": " +:+ generateSMSMessage date b.

(** A row with a column that [mapRow] does not know. *)
Definition sara_with_city : Row := <["Ville" := Str "Rabat"]> sara.

Definition ali_form : ManualEntryForm := mkForm "Ali" "0600" "B1" transfer "FR76 1".

(** A cash entry made after an account number was typed for a transfer. *)
Definition sara_form : ManualEntryForm := mkForm "Sara" "0611" "B2" cash "FR76 1".

(** An entry without a phone. *)
Definition no_phone_form : ManualEntryForm := mkForm "Sara" "" "B2" cash "".

(** ** The page while a send waits (page.tsx, line 81) *)

(** What else happens on the page: the manual events, an upload, whose
    file reads as rows or cannot be read, the end of the read of a file
    that was chosen earlier, a change of the date (line 170) and the
    dismissal of the banner (line 109). *)
Inductive PageEvent :=
| Manual (e : ManualEvent)
| Upload (parsed : option (list Row))
| FileRead (parsed : option (list Row))
| PickDate (d : string)
| Dismiss.

Definition page_actions (e : PageEvent) : list Action :=
  match e with
  | Manual e => manual_actions e
  | Upload parsed => handleFileUpload (λ file : option (list Row), file) (Some parsed)
  | FileRead parsed => reader_onload (λ file : option (list Row), file) parsed
  | PickDate d => [ setNotificationDate d ]
  | Dismiss => [ setSuccessMessage None ]
  end.

(** The calls of an [async] handler with the calls [others] of the events
    that the page handles while the handler waits at its [await]. *)
Fixpoint during_wait (others acts : list Action) : list Action :=
  match acts with
  | [] => []
  | sleep ms :: acts' => sleep ms :: others ++ during_wait others acts'
  | a :: acts' => a :: during_wait others acts'
  end.

(** The calls that leave the pending flag and the console alone and do not
    wait. *)
Definition quiet (a : Action) : Prop :=
  match a with
  | setIsSending _ | console_log _ | sleep _ => False
  | _ => True
  end.

(** ** The scenario, run *)

Example import_ali_sara :
  beneficiaries (run (importRows [ali; sara]) (initial "2024-01-01")) =
  [ mkBeneficiary "Ali" "0600" "B1" transfer None;
    mkBeneficiary "Sara" "0611" "B2" cash None ].
Proof. vm_compute. reflexivity. Qed.

Example import_ali_sara_banner :
  successMessage (run (importRows [ali; sara]) (initial "2024-01-01")) =
  Some "2 bénéficiaires ajoutés depuis le fichier".
Proof. vm_compute. reflexivity. Qed.

Example message_ali :
  option_map (λ b, Js.endsWith (generateSMSMessage "2024-01-01" b) transfer_line)
             (mapRow ali) = Some true.
Proof. vm_compute. reflexivity. Qed.

Example message_sara :
  option_map (generateSMSMessage "2024-01-01") (mapRow sara) =
  Some ("Bonjour Sara" +:+
        String Js.LF "Votre bon de commande B2 sera payé le 2024-01-01." +:+
        String Js.LF "Vous pouvez passer à la trésorerie.").
Proof. vm_compute. reflexivity. Qed.

(** Cells that are not texts: a phone typed as a number is kept, a "Compte"
    cell holding 0 is passed over, and a number in "Mode" stops the import. *)
Example mapRow_numbers :
  mapRow (<["Nom" := Str "Ali"]> (<["Téléphone" := Num "600123456"]>
           (<["Compte" := Num "0"]> (<["IBAN" := Str "FR76 1"]> ∅)))) =
  Some (mkBeneficiary "Ali" "600123456" "" cash (Some "FR76 1")).
Proof. vm_compute. reflexivity. Qed.

Example import_numeric_mode :
  run (importRows [ali; numeric_mode]) (initial "2024-01-01") =
  mkState [] "2024-01-01" false None
          ["Erreur lors de la lecture du fichier. Vérifiez le format."] [].
Proof. vm_compute. reflexivity. Qed.

(** ** Facts about the string primitives *)

Section JsStrings.

Implicit Types s t sub pre post : string.
Implicit Types c : ascii.

(** stdpp keeps [String.append] folded under [simpl]; its two equations. *)
Lemma app_nil_l s : "" +:+ s = s.
Proof. reflexivity. Qed.

Lemma app_cons c s t : String c s +:+ t = String c (s +:+ t).
Proof. reflexivity. Qed.

Lemma app_nil_r s : s +:+ "" = s.
Proof. induction s as [|c s IH]; [done|]. by rewrite app_cons, IH. Qed.

Lemma prefix_nil_l s : String.prefix "" s = true.
Proof. by destruct s. Qed.

Lemma prefix_refl s : String.prefix s s = true.
Proof.
  induction s as [|c s IH]; simpl; [done|].
  destruct (ascii_dec c c); [done|congruence].
Qed.

Lemma prefix_true_iff sub s : String.prefix sub s = true ↔ ∃ post, s = sub +:+ post.
Proof.
  revert s. induction sub as [|c sub IH]; intros s; simpl.
  - split; [intros _; by exists s|by destruct s].
  - destruct s as [|c' s]; [split; [done|intros [? ?]; discriminate]|].
    simpl. destruct (ascii_dec c c') as [Heq|Hne].
    + subst c'. rewrite IH.
      split; intros [post H]; exists post; rewrite app_cons in *; congruence.
    + split; [done|]. intros [post H]. rewrite app_cons in H. congruence.
Qed.

Lemma string_app_assoc s t u : (s +:+ t) +:+ u = s +:+ (t +:+ u).
Proof. induction s as [|c s IH]; [done|]. by rewrite !app_cons, IH. Qed.

Lemma prefix_app sub s t : String.prefix sub s = true → String.prefix sub (s +:+ t) = true.
Proof.
  rewrite !prefix_true_iff. intros [post ->]. exists (post +:+ t).
  apply string_app_assoc.
Qed.

(** [includes] decides [Occurs]. *)
Lemma includes_true_iff s sub : Js.includes s sub = true ↔ Occurs sub s.
Proof.
  induction s as [|c s IH]; cbn [Js.includes].
  - rewrite orb_false_r, prefix_true_iff. split.
    + intros [post H]. by exists "", post.
    + intros [[|? ?] [post H]]; [by exists post|discriminate].
  - rewrite orb_true_iff, IH, prefix_true_iff. split.
    + intros [[post H]|(pre & post & H)].
      * by exists "", post.
      * exists (String c pre), post. by rewrite app_cons, H.
    + intros ([|c' pre] & post & H).
      * left. by exists post.
      * right. exists pre, post. rewrite app_cons in H. congruence.
Qed.

Lemma includes_app_r s t : Js.includes (s +:+ t) t = true.
Proof. apply includes_true_iff. exists s, "". by rewrite app_nil_r. Qed.

Lemma endsWith_app_r s t : Js.endsWith (s +:+ t) t = true.
Proof.
  induction s as [|c s IH].
  - rewrite app_nil_l. destruct t; simpl; [done|].
    by rewrite Ascii.eqb_refl, String.eqb_refl.
  - rewrite app_cons. simpl. by rewrite IH, orb_true_r.
Qed.

(** A string without the character [c] that is a prefix of [s] followed by
    [c] and more, is a prefix of [s] alone. *)
Lemma prefix_before_char c sub s t :
  has_char c sub = false →
  String.prefix sub (s +:+ String c t) = true → String.prefix sub s = true.
Proof.
  revert sub. induction s as [|c' s IH]; intros [|d sub];
    rewrite ?app_nil_l, ?app_cons; simpl; try done.
  - intros Hc. apply orb_false_elim in Hc as [Hcd _].
    destruct (ascii_dec d c) as [Heq|]; [|done].
    subst d. by rewrite Ascii.eqb_refl in Hcd.
  - intros Hc. apply orb_false_elim in Hc as [_ Hc].
    destruct (ascii_dec d c'); [|done]. by apply IH.
Qed.

(** An occurrence cannot straddle a character that [sub] does not have. *)
Lemma includes_app_char c sub s t :
  has_char c sub = false →
  Js.includes (s +:+ String c t) sub =
  Js.includes s sub || Js.includes (String c t) sub.
Proof.
  intros Hc. induction s as [|c' s IH].
  - rewrite app_nil_l. cbn [Js.includes]. rewrite orb_false_r.
    destruct (String.prefix sub "") eqn:Hp; [|done].
    apply prefix_true_iff in Hp as [post Hp].
    destruct sub; [|discriminate]. done.
  - rewrite app_cons. cbn [Js.includes]. rewrite IH.
    destruct (String.prefix sub (String c' s)) eqn:Hp.
    + apply (prefix_app _ _ (String c t)) in Hp. rewrite app_cons in Hp.
      by rewrite Hp.
    + destruct (String.prefix sub (String c' (s +:+ String c t))) eqn:Hq; [|done].
      rewrite <- app_cons in Hq.
      apply (prefix_before_char c sub (String c' s) t Hc) in Hq. congruence.
Qed.

End JsStrings.

(** ** The composed message *)

Section Composer.

Implicit Types b : Beneficiary.
Implicit Types d : string.

Lemma includes_closing s t : Js.includes (s +:+ String Js.LF t) t = true.
Proof.
  replace (s +:+ String Js.LF t) with ((s +:+ String Js.LF "") +:+ t).
  - apply includes_app_r.
  - by rewrite string_app_assoc, app_cons, app_nil_l.
Qed.

Lemma endsWith_closing s t : Js.endsWith (s +:+ String Js.LF t) t = true.
Proof.
  replace (s +:+ String Js.LF t) with ((s +:+ String Js.LF "") +:+ t).
  - apply endsWith_app_r.
  - by rewrite string_app_assoc, app_cons, app_nil_l.
Qed.

(** Neither closing line has a line feed, and neither occurs in the other
    one's line. *)
Lemma closing_lines_apart :
  has_char Js.LF treasury_line = false ∧ has_char Js.LF transfer_line = false ∧
  Js.includes (String Js.LF treasury_line) transfer_line = false ∧
  Js.includes (String Js.LF transfer_line) treasury_line = false.
Proof. repeat split; vm_compute; reflexivity. Qed.

(** C2, as stated, fails: the greeting interpolates the name, so the cash
    message of [homonym] contains the transfer-completed sentence. *)
Lemma closing_line_as_claimed_fails : ¬ closing_line_as_claimed homonym "2024-01-01".
Proof.
  intros [Hcash _]. destruct (Hcash eq_refl) as [_ Hno].
  vm_compute in Hno. discriminate.
Qed.

(** C2, amended: the message of a cash beneficiary contains the treasury
    line and ends with it, and the transfer-completed sentence occurs in it
    exactly when it occurs in the interpolated part (greeting, reference
    and date); the same for a transfer beneficiary with the two lines
    exchanged. *)
Theorem generateSMSMessage_closing_line d b :
  match paymentMethod b with
  | cash =>
      Js.includes (generateSMSMessage d b) treasury_line = true ∧
      Js.endsWith (generateSMSMessage d b) treasury_line = true ∧
      Js.includes (generateSMSMessage d b) transfer_line =
        Js.includes (baseMessage d b) transfer_line
  | transfer =>
      Js.includes (generateSMSMessage d b) transfer_line = true ∧
      Js.endsWith (generateSMSMessage d b) transfer_line = true ∧
      Js.includes (generateSMSMessage d b) treasury_line =
        Js.includes (baseMessage d b) treasury_line
  end.
Proof.
  destruct closing_lines_apart as (Hlf1 & Hlf2 & Hno1 & Hno2).
  unfold generateSMSMessage. destruct (paymentMethod b).
  - split; [apply includes_closing|]. split; [apply endsWith_closing|].
    by rewrite (includes_app_char _ _ _ _ Hlf2), Hno1, orb_false_r.
  - split; [apply includes_closing|]. split; [apply endsWith_closing|].
    by rewrite (includes_app_char _ _ _ _ Hlf1), Hno2, orb_false_r.
Qed.

(** C7: the account number is not part of the message: two beneficiaries
    that agree on every other field get the same message. *)
Theorem generateSMSMessage_ignores_account d b1 b2 :
  name b1 = name b2 → phone b1 = phone b2 → reference b1 = reference b2 →
  paymentMethod b1 = paymentMethod b2 →
  generateSMSMessage d b1 = generateSMSMessage d b2.
Proof.
  intros Hn _ Hr Hp. unfold generateSMSMessage, baseMessage.
  by rewrite Hn, Hr, Hp.
Qed.

Lemma generateSMSMessage_ignores_account_witness :
  generateSMSMessage "2024-01-01" (mkBeneficiary "Ali" "0600" "B1" transfer (Some "FR76 1"))
  = generateSMSMessage "2024-01-01" (mkBeneficiary "Ali" "0600" "B1" transfer None).
Proof.
  apply (generateSMSMessage_ignores_account "2024-01-01"
           (mkBeneficiary "Ali" "0600" "B1" transfer (Some "FR76 1"))
           (mkBeneficiary "Ali" "0600" "B1" transfer None)); reflexivity.
Defined.

End Composer.

(** ** Rows to beneficiaries *)

Section RowMapping.

Implicit Types row : Row.
Implicit Types c d : ascii.

Lemma all_ascii_complete c : In c all_ascii.
Proof.
  rewrite <- (ascii_nat_embedding c). apply in_map, in_seq.
  pose proof (nat_ascii_bounded c). lia.
Qed.

(** [same_letter] is equality after lowering, checked on the 256 x 256
    pairs of characters. *)
Lemma same_letter_lower c d :
  same_letter c d = Ascii.eqb (Js.lower_char c) (Js.lower_char d).
Proof.
  assert (forallb (λ c, forallb (λ d,
            Bool.eqb (same_letter c d)
                     (Ascii.eqb (Js.lower_char c) (Js.lower_char d)))
            all_ascii) all_ascii = true) as Hall by (vm_compute; reflexivity).
  rewrite forallb_forall in Hall. specialize (Hall c (all_ascii_complete c)).
  rewrite forallb_forall in Hall. specialize (Hall d (all_ascii_complete d)).
  by apply Bool.eqb_prop.
Qed.

Lemma eq_ignore_case_lower s t :
  eq_ignore_case s t = String.eqb (Js.toLowerCase s) (Js.toLowerCase t).
Proof.
  revert t. induction s as [|c s IH]; intros [|d t]; simpl; try done.
  by rewrite same_letter_lower, IH.
Qed.

(** The [||] chain of the source is [first_filled] on the alias list: both
    sides test the same cells in the same order. *)
Ltac case_cell row k :=
  let v := fresh "v" in
  let E := fresh "E" in
  destruct (row !! k) as [v|]; [destruct (Js.cell_truthy v) eqn:E|].

Ltac settle_cells :=
  repeat (cbn -[Js.cell_truthy];
          match goal with
          | E : Js.cell_truthy ?v = _ |- context [Js.cell_truthy ?v] => rewrite E
          end);
  cbn -[Js.cell_truthy]; done.

Lemma or_str_filled2 row (k1 k2 dflt : string) :
  Js.or_str (row !! k1 ||| row !! k2) dflt = first_filled row [k1; k2] dflt.
Proof.
  unfold Js.or_str, Js.or, Js.truthy; cbn [first_filled].
  case_cell row k1; case_cell row k2; settle_cells.
Qed.

Lemma or_str_filled3 row (k1 k2 k3 dflt : string) :
  Js.or_str (row !! k1 ||| row !! k2 ||| row !! k3) dflt =
  first_filled row [k1; k2; k3] dflt.
Proof.
  unfold Js.or_str, Js.or, Js.truthy; cbn [first_filled].
  case_cell row k1; case_cell row k2; case_cell row k3; settle_cells.
Qed.

(** On a row without falsy cells, which is what [sheet_to_json] yields for
    a sheet whose blank cells are really blank and that holds neither 0 nor
    FALSE, the two readings agree. *)
Lemma first_filled_found row (aliases : list string) (dflt : string) :
  (∀ k v, row !! k = Some v → Js.cell_truthy v = true) →
  first_filled row aliases dflt = first_found row aliases dflt.
Proof.
  intros Hrow. induction aliases as [|k ks IH]; simpl; [done|].
  destruct (row !! k) as [v|] eqn:Hk; [|done]. by rewrite (Hrow k v Hk).
Qed.

(** What [first_filled] returns, without the recursion: the cell of an
    alias that is truthy while every alias before it is not, or the default
    when none is. *)
Lemma first_filled_spec row (aliases : list string) (dflt : string) (v : Cell) :
  first_filled row aliases dflt = v ↔
  (∃ i k, aliases !! i = Some k ∧ row !! k = Some v ∧ Js.cell_truthy v = true ∧
          ∀ j k', j < i → aliases !! j = Some k' → Js.truthy (row !! k') = false)
  ∨ (v = Str dflt ∧ ∀ k, k ∈ aliases → Js.truthy (row !! k) = false).
Proof.
  revert v. induction aliases as [|k ks IH]; intros v; simpl.
  - split.
    + intros <-. right. split; [done|]. intros k Hk. by apply elem_of_nil in Hk.
    + intros [(i & k & Hi & _)|[-> _]]; [by destruct i|done].
  - assert (Js.truthy (row !! k) = false →
            (first_filled row ks dflt = v ↔
             (∃ i k0, (k :: ks) !! i = Some k0 ∧ row !! k0 = Some v ∧
                Js.cell_truthy v = true ∧
                ∀ j k', j < i → (k :: ks) !! j = Some k' →
                        Js.truthy (row !! k') = false)
             ∨ (v = Str dflt ∧ ∀ k0, k0 ∈ k :: ks → Js.truthy (row !! k0) = false)))
      as Hskip.
    { intros Hk. rewrite IH. split.
      - intros [(i & k0 & Hi & Hv & Hne & Hbefore)|[-> Hall]].
        + left. exists (S i), k0. repeat split; try done.
          intros [|j] k' Hj Hk'; simpl in Hk'; [congruence|].
          apply (Hbefore j); [lia|done].
        + right. split; [done|]. intros k0 [->|Hin]%elem_of_cons; auto.
      - intros [(i & k0 & Hi & Hv & Hne & Hbefore)|[-> Hall]].
        + destruct i as [|i]; simpl in Hi.
          * injection Hi as <-. rewrite Hv in Hk. simpl in Hk. congruence.
          * left. exists i, k0. repeat split; try done.
            intros j k' Hj Hk'. apply (Hbefore (S j)); [lia|done].
        + right. split; [done|]. intros k0 Hin. apply Hall. by right. }
    destruct (row !! k) as [w|] eqn:Hk; [|by apply Hskip].
    destruct (Js.cell_truthy w) eqn:Hw; [|by apply Hskip].
    split.
    + intros <-. left. exists 0, k. repeat split; try done. intros j k' Hj. lia.
    + intros [(i & k0 & Hi & Hv & Hne & Hbefore)|[-> Hall]].
      * destruct i as [|i]; simpl in Hi; [congruence|].
        specialize (Hbefore 0 k ltac:(lia) eq_refl). rewrite Hk in Hbefore.
        simpl in Hbefore. congruence.
      * specialize (Hall k ltac:(left)). rewrite Hk in Hall. simpl in Hall.
        congruence.
Qed.

(** C1, as stated, fails on [blank_nom]: "Nom" is found, with the empty
    string, and the source goes on to "Name". *)
Lemma mapRow_as_claimed_fails : ¬ mapRow_as_claimed blank_nom.
Proof.
  intros (b & Hb & Hname & _). vm_compute in Hb. injection Hb as <-.
  vm_compute in Hname. discriminate.
Qed.

(** C1, amended: the mode of a row is the cell of the first of "Méthode",
    "Mode" that is truthy (there, and not the empty string, 0, FALSE or
    null), and "cash" when there is none.  When it is a text, the row gives a
    beneficiary: each of name, phone and reference is the cell, shown as its
    text, of the first alias of its list that is truthy, and the empty string
    when there is none; the payment method is [transfer] exactly when the
    mode equals "virement" up to case, and [cash] otherwise.  When it is not
    a text (a number other than 0, TRUE) the mapping of the row throws. *)
Theorem mapRow_fields row :
  match first_filled row mode_aliases "cash" with
  | Str mode =>
      ∃ b, mapRow row = Some b ∧
           name b = cell_text (first_filled row name_aliases "") ∧
           phone b = cell_text (first_filled row phone_aliases "") ∧
           reference b = cell_text (first_filled row reference_aliases "") ∧
           (paymentMethod b = transfer ↔ eq_ignore_case mode "virement" = true) ∧
           (paymentMethod b = cash ↔ eq_ignore_case mode "virement" = false)
  | _ => mapRow row = None
  end.
Proof.
  unfold mapRow, name_aliases, phone_aliases, reference_aliases, mode_aliases.
  rewrite or_str_filled2.
  destruct (first_filled row ["Méthode"; "Mode"] "cash") as [mode| | |];
    cbn [Js.call_toLowerCase]; try done.
  eexists. split; [reflexivity|]. cbn [name phone reference paymentMethod].
  rewrite !or_str_filled3, eq_ignore_case_lower.
  change (Js.toLowerCase "virement") with "virement".
  repeat split; try done;
    destruct (String.eqb _ "virement"); done.
Qed.

(** The mapping of a row throws exactly when its mode is not a text. *)
Lemma mapRow_is_Some row : is_Some (mapRow row) ↔ mode_is_text row.
Proof.
  unfold mapRow, mode_is_text, mode_aliases. rewrite or_str_filled2.
  destruct (first_filled row ["Méthode"; "Mode"] "cash") as [mode| | |];
    cbn [Js.call_toLowerCase].
  - split; [by exists mode|by eexists].
  - split; [by intros [? ?]|by intros [? ?]].
  - split; [by intros [? ?]|by intros [? ?]].
  - split; [by intros [? ?]|by intros [? ?]].
Qed.

End RowMapping.

(** ** The beneficiary store *)

Section Store.

Implicit Types s : State.
Implicit Types l : list Beneficiary.
Implicit Types index : Z.

(** *** Removal by position *)

Lemma filter_from_outside l (k : nat) index :
  (index < Z.of_nat k ∨ Z.of_nat (k + List.length l) ≤ index)%Z →
  filter_from (λ (_ : Beneficiary) i, negb (Z.of_nat i =? index)%Z) k l = l.
Proof.
  revert k. induction l as [|b l IH]; intros k Hout; simpl; [done|].
  simpl in Hout. destruct (Z.eqb_spec (Z.of_nat k) index) as [Heq|_]; [lia|].
  simpl. f_equal. apply IH. lia.
Qed.

Lemma filter_from_inside l (k i : nat) :
  i < List.length l →
  filter_from (λ (_ : Beneficiary) j, negb (Z.of_nat j =? Z.of_nat (k + i))%Z) k l
  = take i l ++ drop (S i) l.
Proof.
  revert k i. induction l as [|b l IH]; intros k i Hi; simpl in *; [lia|].
  destruct i as [|i].
  - rewrite Nat.add_0_r, Z.eqb_refl. simpl. rewrite drop_0.
    apply filter_from_outside. lia.
  - destruct (Z.eqb_spec (Z.of_nat k) (Z.of_nat (k + S i))) as [Heq|_]; [lia|].
    simpl. f_equal. replace (k + S i) with (S k + i) by lia. apply IH. lia.
Qed.

Lemma beneficiaries_removeBeneficiary s index :
  beneficiaries (run (removeBeneficiary index) s) =
  Array_filter (λ _ i, negb (Z.of_nat i =? index)%Z) (beneficiaries s).
Proof. reflexivity. Qed.

(** The banner is set whether or not a record went. *)
Lemma successMessage_removeBeneficiary s index :
  successMessage (run (removeBeneficiary index) s) = Some "Bénéficiaire supprimé".
Proof. reflexivity. Qed.

(** C8: at a position [index] of the collection, [removeBeneficiary]
    leaves the records before it followed by the records after it, in
    their order: one record fewer, the earlier ones where they were, the
    later ones one place down. *)
Theorem removeBeneficiary_in_range s index :
  (0 ≤ index < Z.of_nat (List.length (beneficiaries s)))%Z →
  let l := beneficiaries s in
  let l' := beneficiaries (run (removeBeneficiary index) s) in
  l' = take (Z.to_nat index) l ++ drop (S (Z.to_nat index)) l ∧
  List.length l' = List.length l - 1 ∧
  (∀ j, j < Z.to_nat index → l' !! j = l !! j) ∧
  (∀ j, Z.to_nat index ≤ j → l' !! j = l !! S j).
Proof.
  intros Hin l l'.
  assert (l' = take (Z.to_nat index) l ++ drop (S (Z.to_nat index)) l) as Heq.
  { subst l l'. rewrite beneficiaries_removeBeneficiary. unfold Array_filter.
    pose proof (filter_from_inside (beneficiaries s) 0 (Z.to_nat index)) as Hf.
    rewrite Nat.add_0_l, Z2Nat.id in Hf by lia. apply Hf. lia. }
  assert (List.length (take (Z.to_nat index) l) = Z.to_nat index) as Htake.
  { rewrite length_take. subst l. lia. }
  split; [done|]. rewrite Heq. repeat split.
  - rewrite length_app, Htake, length_drop. subst l. lia.
  - intros j Hj. rewrite lookup_app_l by lia. apply lookup_take_lt. done.
  - intros j Hj. rewrite lookup_app_r by lia. rewrite Htake, lookup_drop.
    f_equal. lia.
Qed.

Lemma removeBeneficiary_in_range_witness :
  beneficiaries (run (removeBeneficiary 0) two_records) =
  [ mkBeneficiary "Sara" "0611" "B2" cash None ].
Proof.
  assert (0 ≤ 0 < Z.of_nat (List.length (beneficiaries two_records)))%Z as Hin
    by (simpl; lia).
  exact (proj1 (removeBeneficiary_in_range two_records 0 Hin)).
Defined.

(** C10: away from the positions of the collection, below 0 or from its
    length on, [removeBeneficiary] leaves the collection as it is, and
    shows no alert. *)
Theorem removeBeneficiary_out_of_range s index :
  (index < 0 ∨ Z.of_nat (List.length (beneficiaries s)) ≤ index)%Z →
  beneficiaries (run (removeBeneficiary index) s) = beneficiaries s ∧
  alerts (run (removeBeneficiary index) s) = alerts s.
Proof.
  intros Hout. split; [|done].
  rewrite beneficiaries_removeBeneficiary. apply filter_from_outside. simpl. lia.
Qed.

Lemma removeBeneficiary_out_of_range_witness :
  beneficiaries (run (removeBeneficiary 2) two_records) = beneficiaries two_records ∧
  beneficiaries (run (removeBeneficiary (-1)) two_records) = beneficiaries two_records.
Proof.
  split.
  - apply (removeBeneficiary_out_of_range two_records 2). right. simpl. lia.
  - apply (removeBeneficiary_out_of_range two_records (-1)). left. lia.
Defined.

(** C9: after "Tout effacer" the collection has no record, whatever it
    held. *)
Theorem clearAll_empty s : List.length (beneficiaries (run clearAll s)) = 0.
Proof. reflexivity. Qed.

(** *** Import *)

Lemma mapM_mapRow_is_Some (rows : list Row) :
  is_Some (mapM mapRow rows) ↔ Forall mode_is_text rows.
Proof.
  rewrite mapM_is_Some. apply Forall_proper; [|done].
  intros row. apply mapRow_is_Some.
Qed.

Lemma importRows_imported (rows : list Row) (newBeneficiaries : list Beneficiary) s :
  mapM mapRow rows = Some newBeneficiaries →
  run (importRows rows) s =
  mkState (beneficiaries s ++ newBeneficiaries) (notificationDate s) (isSending s)
          (Some (pretty (List.length rows) +:+ " bénéficiaires ajoutés depuis le fichier"))
          (alerts s) (console s).
Proof.
  intros Hmap. unfold importRows. rewrite Hmap.
  apply length_mapM in Hmap. rewrite <- Hmap. reflexivity.
Qed.

Lemma importRows_refused (rows : list Row) s :
  mapM mapRow rows = None →
  run (importRows rows) s =
  mkState (beneficiaries s) (notificationDate s) (isSending s) (successMessage s)
          (alerts s ++ ["Erreur lors de la lecture du fichier. Vérifiez le format."])
          (console s).
Proof. intros Hmap. unfold importRows. by rewrite Hmap. Qed.

(** C5, as stated, fails: a sheet whose only row has the number 1 in "Mode"
    stores no record. *)
Lemma importRows_as_claimed_fails :
  ¬ importRows_as_claimed [numeric_mode] (initial "2024-01-01").
Proof. intros Hlen. vm_compute in Hlen. discriminate. Qed.

(** C5, amended: when the mode of every row is a text, [importRows] puts
    one record per row after the records already there, in the order of the
    rows, whatever else the rows hold or lack, shows no alert, and the banner
    reports the number of rows; when the mode of some row is not a text (a
    number other than 0, or TRUE, in "Méthode" or "Mode"), the whole sheet is
    refused: the collection and the banner stay and one alert is shown. *)
Theorem importRows_appends (rows : list Row) s :
  let s' := run (importRows rows) s in
  (Forall mode_is_text rows →
   ∃ newBeneficiaries,
     mapM mapRow rows = Some newBeneficiaries ∧
     beneficiaries s' = beneficiaries s ++ newBeneficiaries ∧
     List.length (beneficiaries s') = List.length (beneficiaries s) + List.length rows ∧
     (∀ i, i < List.length (beneficiaries s) →
           beneficiaries s' !! i = beneficiaries s !! i) ∧
     (∀ i row, rows !! i = Some row →
               ∃ b, mapRow row = Some b ∧
                    beneficiaries s' !! (List.length (beneficiaries s) + i) = Some b) ∧
     alerts s' = alerts s ∧
     successMessage s' =
       Some (pretty (List.length rows) +:+ " bénéficiaires ajoutés depuis le fichier")) ∧
  (¬ Forall mode_is_text rows →
   beneficiaries s' = beneficiaries s ∧ successMessage s' = successMessage s ∧
   alerts s' =
     alerts s ++ ["Erreur lors de la lecture du fichier. Vérifiez le format."]).
Proof.
  intros s'. subst s'. split.
  - intros [nb Hmap]%mapM_mapRow_is_Some. exists nb.
    rewrite (importRows_imported rows nb s Hmap). cbn [beneficiaries alerts successMessage].
    pose proof (length_mapM _ _ _ Hmap) as Hlen.
    split; [done|]. apply mapM_Some in Hmap. split; [done|]. split; [by rewrite length_app, <- Hlen|].
    split; [intros i Hi; by rewrite lookup_app_l|]. split; [|done].
    intros i row Hrow.
    destruct (Forall2_lookup_l _ _ _ _ _ Hmap Hrow) as (b & Hb & Hrowb).
    exists b. split; [done|]. rewrite lookup_app_r by lia.
    by replace (List.length (beneficiaries s) + i - List.length (beneficiaries s))
      with i by lia.
  - intros Hnot. destruct (mapM mapRow rows) as [nb|] eqn:Hmap.
    + destruct Hnot. apply mapM_mapRow_is_Some. by rewrite Hmap.
    + by rewrite (importRows_refused rows s Hmap).
Qed.

Lemma reader_onload_parsed {File} (sheet_to_json : File → option (list Row)) file rows :
  sheet_to_json file = Some rows → reader_onload sheet_to_json file = importRows rows.
Proof. unfold reader_onload. by intros ->. Qed.

(** C4: when the sheet cannot be read, the upload clears the banner, shows
    one alert and nothing else: the collection is the one before. *)
Theorem handleFileUpload_unreadable {File} (sheet_to_json : File → option (list Row))
    (file : File) s :
  sheet_to_json file = None →
  handleFileUpload sheet_to_json (Some file) =
    [ setSuccessMessage None;
      alert "Erreur lors de la lecture du fichier. Vérifiez le format." ] ∧
  beneficiaries (run (handleFileUpload sheet_to_json (Some file)) s) = beneficiaries s ∧
  alerts (run (handleFileUpload sheet_to_json (Some file)) s) =
    alerts s ++ [ "Erreur lors de la lecture du fichier. Vérifiez le format." ].
Proof. intros Hfail. unfold handleFileUpload, reader_onload. by rewrite Hfail. Qed.

Lemma handleFileUpload_unreadable_witness :
  toy_sheet_to_json [] = None ∧
  beneficiaries (run (handleFileUpload toy_sheet_to_json (Some [])) two_records) =
  beneficiaries two_records.
Proof.
  split; [reflexivity|].
  apply (handleFileUpload_unreadable toy_sheet_to_json [] two_records). reflexivity.
Defined.

(** *** The invariant of the data model *)

Lemma Forall_filter_from (P : Beneficiary → Prop) (f : Beneficiary → nat → bool) l k :
  Forall P l → Forall P (filter_from f k l).
Proof.
  intros Hl. revert k. induction Hl as [|b l Hb Hl IH]; intros k; simpl; [done|].
  destruct (f b k); [constructor|]; auto.
Qed.

Lemma store_ok_two_records : store_ok two_records.
Proof. repeat constructor; discriminate. Qed.

(** C3, as stated, fails: the store with no record satisfies the
    invariant, and importing [name_only] into it stores a record whose
    phone and reference are empty. *)
Lemma importRows_breaks_store_ok :
  store_ok (initial "2024-01-01") ∧
  ¬ store_ok (run (importRows [name_only]) (initial "2024-01-01")).
Proof.
  split; [constructor|]. intros Hok.
  apply Forall_inv in Hok. destruct Hok as (_ & Hphone & _). by apply Hphone.
Qed.

(** C3, amended: from a store whose records have the three fields filled,
    removal and clearing keep it so; a manual entry keeps it so exactly when
    the entry has them filled; an import keeps it so exactly when the sheet
    is refused, the mode of some row not being a text, or every row gives a
    record with the three fields filled. *)
Theorem store_ok_preserved s :
  store_ok s →
  (∀ index, store_ok (run (removeBeneficiary index) s)) ∧
  store_ok (run clearAll s) ∧
  (∀ data, store_ok (run (addManualEntry data) s) ↔ required_filled data) ∧
  (∀ rows : list Row,
     store_ok (run (importRows rows) s) ↔
     (Forall mode_is_text rows →
      Forall (λ row, ∀ b, mapRow row = Some b → required_filled b) rows)).
Proof.
  unfold store_ok. intros Hok. split; [|split; [|split]].
  - intros index. by apply Forall_filter_from.
  - constructor.
  - intros data. cbn [run addManualEntry fold_left step beneficiaries].
    rewrite Forall_app, Forall_singleton. tauto.
  - intros rows. destruct (mapM mapRow rows) as [nb|] eqn:Hmap.
    + rewrite (importRows_imported rows nb s Hmap). cbn [beneficiaries].
      assert (Forall mode_is_text rows) as Htext
        by (apply mapM_mapRow_is_Some; by rewrite Hmap).
      apply mapM_Some in Hmap. rewrite Forall_app. split.
      * intros [_ Hnb] _. clear Htext.
        induction Hmap as [|row b rows nb Hrow _ IH]; constructor.
        -- intros b' Hb'. rewrite Hrow in Hb'. injection Hb' as <-.
           by apply Forall_inv in Hnb.
        -- apply IH. by apply Forall_inv_tail in Hnb.
      * intros Hrows. specialize (Hrows Htext). split; [done|]. clear Htext.
        induction Hmap as [|row b rows nb Hrow _ IH]; constructor.
        -- apply Forall_inv in Hrows. by apply Hrows.
        -- apply IH. by apply Forall_inv_tail in Hrows.
    + rewrite (importRows_refused rows s Hmap). cbn [beneficiaries].
      split; [|done]. intros _ Htext.
      apply mapM_mapRow_is_Some in Htext as [nb Hnb]. congruence.
Qed.

Lemma store_ok_preserved_witness :
  store_ok two_records ∧
  store_ok (run (removeBeneficiary 0) two_records) ∧
  store_ok (run (importRows [ali; sara]) two_records).
Proof.
  pose proof (store_ok_preserved two_records store_ok_two_records)
    as (Hremove & _ & _ & Himport).
  split; [exact store_ok_two_records|]. split; [apply Hremove|].
  apply Himport. intros _.
  constructor; [|constructor; [|constructor]];
    intros b Hb; vm_compute in Hb; injection Hb as <-;
    repeat split; discriminate.
Defined.

(** *** Sending *)

(** C6: with no beneficiary, [sendNotifications] returns at once: it makes
    no call at all, so the pending flag is never set and no message is
    handed over, there is no state on the way, and the state at the end is
    the state at the start. *)
Theorem sendNotifications_empty s :
  beneficiaries s = [] →
  sendNotifications s = [] ∧
  (setIsSending true ∉ sendNotifications s) ∧
  (∀ line, console_log line ∉ sendNotifications s) ∧
  trace (sendNotifications s) s = [] ∧
  run (sendNotifications s) s = s.
Proof.
  intros Hnone. unfold sendNotifications. rewrite Hnone. simpl.
  split; [done|]. split; [apply not_elem_of_nil|].
  split; [intros line; apply not_elem_of_nil|done].
Qed.

Lemma sendNotifications_empty_witness :
  run (sendNotifications (initial "2024-01-01")) (initial "2024-01-01")
  = initial "2024-01-01".
Proof.
  apply (sendNotifications_empty (initial "2024-01-01")). reflexivity.
Defined.

(** With a beneficiary, the first call sets the pending flag, every
    beneficiary gets its line, and the flag is down at the end. *)
Lemma sendNotifications_nonempty s :
  beneficiaries s ≠ [] →
  (∃ rest, sendNotifications s = setIsSending true :: rest) ∧
  isSending (run (sendNotifications s) s) = false ∧
  List.length (console (run (sendNotifications s) s)) =
    List.length (console s) + List.length (beneficiaries s).
Proof.
  intros Hsome. unfold sendNotifications.
  destruct (beneficiaries s) as [|b l] eqn:Hl; [done|].
  change (List.length (b :: l) =? 0) with false. cbv iota.
  split; [eexists; reflexivity|].
  unfold run. rewrite !fold_left_app. split; [done|]. simpl.
  set (logs := map _ l).
  assert (∀ (acts : list Action) s0,
            (∀ a, a ∈ acts → ∃ line, a = console_log line) →
            List.length (console (fold_left step acts s0)) =
            List.length (console s0) + List.length acts) as Hlogs.
  { induction acts as [|a acts IH]; intros s0 Hacts; simpl; [lia|].
    destruct (Hacts a ltac:(left)) as [line ->].
    rewrite IH by (intros a' Ha'; apply Hacts; by right).
    simpl. rewrite length_app. simpl. lia. }
  rewrite Hlogs.
  - simpl. rewrite length_app. subst logs. rewrite length_map. simpl. lia.
  - subst logs. intros a (b' & -> & _)%list_elem_of_fmap. by eexists.
Qed.

End Store.

(** ** More on rows *)

Section RowCells.

Implicit Types row : Row.

Lemma recognised (k : string) :
  In k recognised_columns → k ∈ recognised_columns.
Proof. apply list_elem_of_In. Qed.

(** [mapRow] reads its thirteen columns and nothing else: two rows that agree
    on them give the same beneficiary. *)
Theorem mapRow_recognised_columns row1 row2 :
  (∀ k, k ∈ recognised_columns → row1 !! k = row2 !! k) → mapRow row1 = mapRow row2.
Proof.
  intros Hsame. unfold mapRow.
  rewrite !(λ k Hk, Hsame k (recognised k Hk)) by (simpl; tauto).
  reflexivity.
Qed.

Lemma mapRow_recognised_columns_witness : mapRow sara_with_city = mapRow sara.
Proof.
  apply mapRow_recognised_columns. intros k Hk.
  apply lookup_insert_ne. intros <-.
  apply list_elem_of_In in Hk. vm_compute in Hk. intuition discriminate.
Defined.

Lemma truthy_false (v : option Cell) :
  Js.truthy v = false ↔ v = None ∨ ∃ c, v = Some c ∧ Js.cell_truthy c = false.
Proof.
  destruct v as [c|]; simpl; [|by split; [left|]].
  split; [intros Hc; right; by exists c|].
  intros [|(c' & [= <-] & Hc)]; done.
Qed.




(** A truthy "Méthode" cell alone decides what line 41 does, whatever "Mode"
    holds: a text gives the payment method ([transfer] when it equals
    "virement" up to case, else [cash]) and anything else makes the mapping
    throw; "Mode" is read in the same way only when "Méthode" is missing or
    falsy; with neither truthy the method is cash. *)
Theorem mapRow_mode_cells row :
  (∀ c, row !! "Méthode" = Some c → Js.cell_truthy c = true →
        match c with
        | Str v =>
            ∃ b, mapRow row = Some b ∧
                 paymentMethod b = if eq_ignore_case v "virement" then transfer else cash
        | _ => mapRow row = None
        end) ∧
  (Js.truthy (row !! "Méthode") = false →
   ∀ c, row !! "Mode" = Some c → Js.cell_truthy c = true →
        match c with
        | Str v =>
            ∃ b, mapRow row = Some b ∧
                 paymentMethod b = if eq_ignore_case v "virement" then transfer else cash
        | _ => mapRow row = None
        end) ∧
  (Js.truthy (row !! "Méthode") = false → Js.truthy (row !! "Mode") = false →
   ∃ b, mapRow row = Some b ∧ paymentMethod b = cash).
Proof.
  unfold mapRow. rewrite or_str_filled2. cbn [first_filled].
  split; [|split].
  - intros c Hm Hc. rewrite Hm, Hc.
    destruct c as [v| | |]; cbn [Js.call_toLowerCase]; try done.
    eexists. split; [reflexivity|]. cbn [paymentMethod].
    by rewrite eq_ignore_case_lower.
  - intros Hm c Hmode Hc.
    assert (first_filled row ["Méthode"; "Mode"] "cash" = c) as Hfirst.
    { cbn [first_filled]. rewrite Hmode, Hc.
      apply truthy_false in Hm as [->|(c' & -> & ->)]; done. }
    cbn [first_filled] in Hfirst. rewrite Hfirst.
    destruct c as [v| | |]; cbn [Js.call_toLowerCase]; try done.
    eexists. split; [reflexivity|]. cbn [paymentMethod].
    by rewrite eq_ignore_case_lower.
  - intros Hm Hmode.
    assert (first_filled row ["Méthode"; "Mode"] "cash" = Str "cash") as Hfirst.
    { cbn [first_filled].
      apply truthy_false in Hm as [->|(c' & -> & ->)];
        apply truthy_false in Hmode as [->|(c'' & -> & ->)]; done. }
    cbn [first_filled] in Hfirst. rewrite Hfirst. cbn [Js.call_toLowerCase].
    eexists. split; [reflexivity|]. reflexivity.
Qed.

(** A row with none of the recognised columns, as every row of a sheet with
    other headers is, becomes the blank cash record; [importRows] then stores
    one blank record per row. *)
Theorem importRows_unrecognised_headers (rows : list Row) (s : State) :
  Forall (λ row : Row, ∀ k, k ∈ recognised_columns → row !! k = None) rows →
  mapM mapRow rows = Some (replicate (List.length rows) blank_record) ∧
  beneficiaries (run (importRows rows) s) =
    beneficiaries s ++ replicate (List.length rows) blank_record.
Proof.
  intros Hrows.
  assert (mapM mapRow rows = Some (replicate (List.length rows) blank_record)) as Hmap.
  { apply mapM_Some.
    induction Hrows as [|row rows Hrow _ IH]; simpl; constructor; [|done].
    unfold mapRow.
    rewrite !(λ k Hk, Hrow k (recognised k Hk)) by (simpl; tauto).
    reflexivity. }
  split; [done|]. unfold importRows. rewrite Hmap. reflexivity.
Qed.

Lemma importRows_unrecognised_headers_witness :
  beneficiaries (run (importRows [ {[ "Prénom" := Str "Ali" ]}; ∅ ]) two_records) =
  beneficiaries two_records ++ [blank_record; blank_record].
Proof.
  apply (importRows_unrecognised_headers [ {[ "Prénom" := Str "Ali" ]}; ∅ ] two_records).
  constructor; [|constructor; [|constructor]]; intros k Hk.
  - apply lookup_singleton_ne. intros <-.
    apply list_elem_of_In in Hk. vm_compute in Hk. intuition discriminate.
  - apply lookup_empty.
Defined.

End RowCells.

(** ** The store, operation after operation *)

Section StoreMore.

Implicit Types s : State.
Implicit Types l : list Beneficiary.
Implicit Types form : ManualEntryForm.

Lemma Array_filter_at l (i : nat) :
  i < List.length l →
  Array_filter (λ (_ : Beneficiary) j, negb (Z.of_nat j =? Z.of_nat i)%Z) l =
  take i l ++ drop (S i) l.
Proof. intros Hi. apply (filter_from_inside l 0 i Hi). Qed.

Lemma run_app (acts1 acts2 : list Action) s :
  run (acts1 ++ acts2) s = run acts2 (run acts1 s).
Proof. apply fold_left_app. Qed.

(** Adding a record by hand and then removing the last position gives the
    collection back. *)
Theorem addManualEntry_then_remove (data : Beneficiary) s :
  beneficiaries
    (run (addManualEntry data ++
          removeBeneficiary (Z.of_nat (List.length (beneficiaries s)))) s)
  = beneficiaries s.
Proof.
  rewrite run_app.
  change (beneficiaries (run (removeBeneficiary _) (run (addManualEntry data) s)))
    with (Array_filter
            (λ (_ : Beneficiary) j,
               negb (Z.of_nat j =? Z.of_nat (List.length (beneficiaries s)))%Z)
            (beneficiaries s ++ [data])).
  rewrite Array_filter_at by (rewrite length_app; simpl; lia).
  rewrite take_app_length, drop_ge by (rewrite length_app; simpl; lia).
  apply List.app_nil_r.
Qed.

(** Positions are the only identity: removing at the same position twice
    takes the record that was there and the one that followed it. *)
Theorem removeBeneficiary_twice s (i : nat) :
  S i < List.length (beneficiaries s) →
  beneficiaries (run (removeBeneficiary (Z.of_nat i) ++ removeBeneficiary (Z.of_nat i)) s)
  = take i (beneficiaries s) ++ drop (i + 2) (beneficiaries s).
Proof.
  intros Hi. rewrite run_app.
  change (beneficiaries (run (removeBeneficiary (Z.of_nat i))
                             (run (removeBeneficiary (Z.of_nat i)) s)))
    with (Array_filter (λ (_ : Beneficiary) j, negb (Z.of_nat j =? Z.of_nat i)%Z)
            (Array_filter (λ (_ : Beneficiary) j, negb (Z.of_nat j =? Z.of_nat i)%Z)
               (beneficiaries s))).
  set (l := beneficiaries s) in *.
  assert (List.length (take i l) = i) as Htake by (rewrite length_take; lia).
  rewrite (Array_filter_at l i) by lia.
  rewrite Array_filter_at by (rewrite length_app, Htake, length_drop; lia).
  rewrite take_app_length' by done.
  replace (S i) with (i + 1) at 1 by lia.
  rewrite drop_app_add' by done. rewrite drop_drop. do 2 f_equal. lia.
Qed.

Lemma removeBeneficiary_twice_witness :
  beneficiaries (run (removeBeneficiary 0 ++ removeBeneficiary 0) two_records) = [].
Proof.
  apply (removeBeneficiary_twice two_records 0). simpl. lia.
Defined.

Lemma mapM_mapRow_None (rows : list Row) :
  ¬ Forall mode_is_text rows → mapM mapRow rows = None.
Proof.
  intros Hnot. destruct (mapM mapRow rows) as [nb|] eqn:Hmap; [|done].
  destruct Hnot. apply mapM_mapRow_is_Some. by rewrite Hmap.
Qed.

(** A sheet is taken whole or not at all.  Two imports in a row whose rows
    all have a text for mode store what one import of both sheets stores,
    and the banner counts the second sheet only; when the second sheet is
    refused, the records of the first one stay, whereas the two as one sheet
    would store nothing. *)
Theorem importRows_twice (rows1 rows2 : list Row) s :
  Forall mode_is_text rows1 →
  (Forall mode_is_text rows2 →
   beneficiaries (run (importRows rows1 ++ importRows rows2) s) =
     beneficiaries (run (importRows (rows1 ++ rows2)) s) ∧
   successMessage (run (importRows rows1 ++ importRows rows2) s) =
     Some (pretty (List.length rows2) +:+ " bénéficiaires ajoutés depuis le fichier")) ∧
  (¬ Forall mode_is_text rows2 →
   beneficiaries (run (importRows rows1 ++ importRows rows2) s) =
     beneficiaries (run (importRows rows1) s) ∧
   beneficiaries (run (importRows (rows1 ++ rows2)) s) = beneficiaries s).
Proof.
  intros [nb1 Hnb1]%mapM_mapRow_is_Some. rewrite run_app. split.
  - intros [nb2 Hnb2]%mapM_mapRow_is_Some.
    assert (mapM mapRow (rows1 ++ rows2) = Some (nb1 ++ nb2)) as Hboth.
    { apply mapM_Some, Forall2_app; by apply mapM_Some. }
    rewrite (importRows_imported _ _ _ Hnb2), (importRows_imported _ _ _ Hnb1),
      (importRows_imported _ _ _ Hboth).
    cbn [beneficiaries successMessage]. by rewrite app_assoc.
  - intros Hnb2%mapM_mapRow_None.
    assert (mapM mapRow (rows1 ++ rows2) = None) as Hboth.
    { apply mapM_None, Exists_app. right. by apply mapM_None. }
    by rewrite (importRows_refused _ _ Hnb2), (importRows_refused _ _ Hboth).
Qed.

Lemma importRows_twice_witness :
  beneficiaries (run (importRows [ali] ++ importRows [numeric_mode]) (initial "2024-01-01"))
  = beneficiaries (run (importRows [ali]) (initial "2024-01-01")) ∧
  beneficiaries (run (importRows ([ali] ++ [numeric_mode])) (initial "2024-01-01")) = [].
Proof.
  assert (Forall mode_is_text [ali]) as Hali.
  { constructor; [|constructor]. by exists "virement". }
  apply (importRows_twice [ali] [numeric_mode] (initial "2024-01-01") Hali).
  intros Htext. apply Forall_inv in Htext as [mode Hmode].
  vm_compute in Hmode. discriminate.
Defined.

(** A sheet that reads as no row at all is no failure: the collection and
    the alerts stay, and the banner announces 0 beneficiaries. *)
Theorem handleFileUpload_no_rows {File} (sheet_to_json : File → option (list Row))
    (file : File) s :
  sheet_to_json file = Some [] →
  let s' := run (handleFileUpload sheet_to_json (Some file)) s in
  beneficiaries s' = beneficiaries s ∧ alerts s' = alerts s ∧
  successMessage s' = Some "0 bénéficiaires ajoutés depuis le fichier".
Proof.
  intros Hrows s'. subst s'. unfold handleFileUpload, reader_onload. rewrite Hrows.
  change (run (setSuccessMessage None :: importRows []) s)
    with (run (importRows []) (step s (setSuccessMessage None))).
  rewrite (importRows_imported [] [] _ eq_refl).
  cbn [step beneficiaries successMessage alerts]. by rewrite List.app_nil_r.
Qed.

Lemma handleFileUpload_no_rows_witness :
  successMessage (run (handleFileUpload Some (Some [])) two_records) =
  Some "0 bénéficiaires ajoutés depuis le fichier".
Proof.
  apply (handleFileUpload_no_rows Some [] two_records). reflexivity.
Defined.

(** An upload never takes a record away and never does both things: either
    no alert is shown, or the collection is the one before.  It leaves the
    date, the pending flag and the console alone. *)
Theorem handleFileUpload_frame {File} (sheet_to_json : File → option (list Row))
    (files : option File) s :
  let s' := run (handleFileUpload sheet_to_json files) s in
  beneficiaries s `prefix_of` beneficiaries s' ∧
  (alerts s' = alerts s ∨ beneficiaries s' = beneficiaries s) ∧
  notificationDate s' = notificationDate s ∧ isSending s' = isSending s ∧
  console s' = console s.
Proof.
  intros s'. subst s'. unfold handleFileUpload, reader_onload.
  destruct files as [file|]; [|by repeat split; auto].
  destruct (sheet_to_json file) as [rows|].
  - change (run (setSuccessMessage None :: importRows rows) s)
      with (run (importRows rows) (step s (setSuccessMessage None))).
    destruct (mapM mapRow rows) as [nb|] eqn:Hmap.
    + rewrite (importRows_imported rows nb _ Hmap).
      cbn [step beneficiaries alerts notificationDate isSending console].
      repeat split; auto. by apply prefix_app_r.
    + rewrite (importRows_refused rows _ Hmap).
      cbn [step beneficiaries alerts notificationDate isSending console].
      repeat split; auto.
  - cbn [run fold_left step beneficiaries alerts notificationDate isSending console].
    repeat split; auto.
Qed.

End StoreMore.

(** ** The manual entry form *)

Section Form.

Implicit Types s : State.
Implicit Types form : ManualEntryForm.

Lemma inputs_valid_true form :
  inputs_valid form = true ↔
  input_name form ≠ "" ∧ input_phone form ≠ "" ∧ input_reference form ≠ "" ∧
  (form_paymentMethod form = transfer → form_accountNumber form ≠ "").
Proof.
  unfold inputs_valid. rewrite !andb_true_iff, !negb_true_iff, !String.eqb_neq.
  destruct (form_paymentMethod form).
  - split; [intros [[[? ?] ?] _]; by repeat split|intros (? & ? & ? & _); by repeat split].
  - rewrite negb_true_iff, String.eqb_neq.
    split; [intros [[[? ?] ?] ?]; by repeat split|].
    intros (? & ? & ? & Ha); repeat split; auto.
Qed.

Lemma submitForm_effect_aux form s :
  (inputs_valid form = false → run (submitForm form) s = s) ∧
  (inputs_valid form = true →
   ∃ b, beneficiaries (run (submitForm form) s) = beneficiaries s ++ [b] ∧ manual_ok b).
Proof.
  unfold submitForm. split; intros Hvalid; rewrite Hvalid; [done|].
  eexists. split; [reflexivity|].
  apply inputs_valid_true in Hvalid as (Hn & Hp & Hr & Ha).
  split; [done|]. unfold account_ok. cbn [paymentMethod accountNumber].
  destruct (form_paymentMethod form); [done|]. eexists. split; [done|]. by apply Ha.
Qed.

(** A submission with a required input left empty changes nothing; a
    complete one stores, after the records already there, one record with
    the three inputs and the chosen method, whose account number is the text
    of the account input for a transfer and undefined for cash, whatever was
    typed into that input earlier. *)
Theorem submitForm_effect form s :
  (inputs_valid form = false → run (submitForm form) s = s) ∧
  (inputs_valid form = true →
   ∃ b, beneficiaries (run (submitForm form) s) = beneficiaries s ++ [b] ∧
        name b = input_name form ∧ phone b = input_phone form ∧
        reference b = input_reference form ∧
        paymentMethod b = form_paymentMethod form ∧
        accountNumber b =
          match form_paymentMethod form with
          | cash => None
          | transfer => Some (form_accountNumber form)
          end ∧
        manual_ok b).
Proof.
  unfold submitForm. split; intros Hvalid; rewrite Hvalid; [done|].
  eexists. split; [reflexivity|]. cbn [name phone reference paymentMethod accountNumber].
  apply inputs_valid_true in Hvalid as (Hn & Hp & Hr & Ha).
  do 4 (split; [reflexivity|]). split; [by destruct (form_paymentMethod form)|].
  split; [done|]. unfold account_ok. cbn [paymentMethod accountNumber].
  destruct (form_paymentMethod form); [done|]. eexists. split; [done|]. by apply Ha.
Qed.

Lemma manual_ok_step (e : ManualEvent) s :
  Forall manual_ok (beneficiaries s) →
  Forall manual_ok (beneficiaries (run (manual_actions e) s)).
Proof.
  intros Hok. destruct e as [form|index|]; cbn [manual_actions].
  - destruct (inputs_valid form) eqn:Hvalid.
    + destruct (proj2 (submitForm_effect_aux form s) Hvalid) as (b & -> & Hb).
      apply Forall_app. split; [done|]. by apply Forall_singleton.
    + by rewrite (proj1 (submitForm_effect_aux form s) Hvalid).
  - by apply Forall_filter_from.
  - constructor.
Qed.

(** Whatever is typed, submitted, removed and cleared by hand, starting from
    the empty page, every stored record has its name, phone and reference
    filled, and an account number, not empty, exactly when it is a
    transfer. *)
Theorem play_manual_ok (events : list ManualEvent) (today : string) :
  Forall manual_ok (beneficiaries (play events (initial today))).
Proof.
  unfold play.
  assert (Forall manual_ok (beneficiaries (initial today))) as Hinit by constructor.
  revert Hinit. generalize (initial today).
  induction events as [|e events IH]; intros s Hok; simpl; [done|].
  apply IH. by apply manual_ok_step.
Qed.

Example play_forms :
  beneficiaries
    (play [Submit ali_form; Submit no_phone_form; Submit sara_form; Remove 5]
          (initial "2024-01-01")) =
  [ mkBeneficiary "Ali" "0600" "B1" transfer (Some "FR76 1");
    mkBeneficiary "Sara" "0611" "B2" cash None ].
Proof. vm_compute. reflexivity. Qed.

End Form.

(** ** A send that has something to send *)

Section Sending.

Implicit Types s : State.
Implicit Types l : list Beneficiary.

Lemma trace_app (acts1 acts2 : list Action) s :
  trace (acts1 ++ acts2) s = trace acts1 s ++ trace acts2 (run acts1 s).
Proof.
  revert s. induction acts1 as [|a acts1 IH]; intros s; simpl; [done|].
  by rewrite IH.
Qed.

Lemma sendNotifications_some s :
  beneficiaries s ≠ [] →
  sendNotifications s =
  [ setIsSending true; setSuccessMessage None; sleep 1500 ] ++
  map (λ b, console_log (sms_line (notificationDate s) b)) (beneficiaries s) ++
  [ setSuccessMessage
      (Some ("✅ " +:+ pretty (List.length (beneficiaries s)) +:+
             " notifications envoyées avec succès"));
    setIsSending false ].
Proof.
  intros Hsome. unfold sendNotifications.
  destruct (beneficiaries s); [done|reflexivity].
Qed.

Lemma run_logs (f : Beneficiary → string) l s :
  run (map (λ b, console_log (f b)) l) s =
  mkState (beneficiaries s) (notificationDate s) (isSending s) (successMessage s)
          (alerts s) (console s ++ map f l).
Proof.
  revert s. induction l as [|b l IH]; intros s.
  - simpl. rewrite List.app_nil_r. by destruct s.
  - change (run (map (λ b, console_log (f b)) (b :: l)) s)
      with (run (map (λ b, console_log (f b)) l) (step s (console_log (f b)))).
    rewrite IH. simpl. by rewrite <- app_assoc.
Qed.

Lemma trace_logs (f : Beneficiary → string) l s :
  Forall (λ s', beneficiaries s' = beneficiaries s ∧ isSending s' = isSending s)
         (trace (map (λ b, console_log (f b)) l) s).
Proof.
  revert s. induction l as [|b l IH]; intros s; simpl; constructor; [done|].
  apply (IH (step s (console_log (f b)))).
Qed.

(** The console receives, in the order of the collection, one line per
    beneficiary, made of its phone and of its message for the date of the
    page; with no beneficiary it receives none. *)
Theorem sendNotifications_console s :
  console (run (sendNotifications s) s) =
  console s ++ map (sms_line (notificationDate s)) (beneficiaries s).
Proof.
  destruct (beneficiaries s) as [|b l] eqn:Hl.
  - unfold sendNotifications. rewrite Hl. simpl. by rewrite List.app_nil_r.
  - rewrite sendNotifications_some by (rewrite Hl; done).
    rewrite !run_app, run_logs, Hl. reflexivity.
Qed.

(** A send keeps the collection, the date and the alerts, lowers the pending
    flag at its end and leaves the banner with the number of
    notifications. *)
Theorem sendNotifications_outcome s :
  beneficiaries s ≠ [] →
  let s' := run (sendNotifications s) s in
  beneficiaries s' = beneficiaries s ∧ notificationDate s' = notificationDate s ∧
  alerts s' = alerts s ∧ isSending s' = false ∧
  successMessage s' =
    Some ("✅ " +:+ pretty (List.length (beneficiaries s)) +:+
          " notifications envoyées avec succès").
Proof.
  intros Hsome s'. subst s'. rewrite sendNotifications_some by done.
  rewrite !run_app, run_logs. repeat split.
Qed.

Lemma sendNotifications_outcome_witness :
  successMessage (run (sendNotifications two_records) two_records) =
  Some "✅ 2 notifications envoyées avec succès".
Proof.
  apply (sendNotifications_outcome two_records). discriminate.
Defined.

Lemma page_actions_quiet (e : PageEvent) : Forall quiet (page_actions e).
Proof.
  destruct e as [[form|index|]|[rows|]|[rows|]|d|]; cbn [page_actions manual_actions].
  - unfold submitForm. destruct (inputs_valid form); repeat constructor.
  - repeat constructor.
  - repeat constructor.
  - unfold handleFileUpload, reader_onload, importRows.
    destruct (mapM mapRow rows); repeat constructor.
  - repeat constructor.
  - unfold reader_onload, importRows.
    destruct (mapM mapRow rows); repeat constructor.
  - repeat constructor.
  - repeat constructor.
  - repeat constructor.
Qed.

Lemma trace_quiet (others : list Action) s :
  Forall quiet others →
  Forall (λ s', isSending s' = isSending s) (trace others s) ∧
  isSending (run others s) = isSending s ∧ console (run others s) = console s.
Proof.
  intros Hquiet. revert s.
  induction Hquiet as [|a others Ha _ IH]; intros s; [by repeat split|].
  destruct (IH (step s a)) as (Htrace & Hflag & Hconsole).
  assert (isSending (step s a) = isSending s ∧ console (step s a) = console s)
    as [Hflag' Hconsole'] by (by destruct a).
  cbn [trace]. change (run (a :: others) s) with (run others (step s a)).
  rewrite Hflag, Hconsole. repeat split; try done.
  constructor; [done|]. eapply Forall_impl; [exact Htrace|].
  intros s' Hs'. by rewrite Hs'.
Qed.

(** What a run makes of the collection depends on the collection alone. *)
Lemma beneficiaries_run (others : list Action) s1 s2 :
  beneficiaries s1 = beneficiaries s2 →
  beneficiaries (run others s1) = beneficiaries (run others s2).
Proof.
  revert s1 s2. induction others as [|a others IH]; intros s1 s2 Hsame; [done|].
  change (run (a :: others) s1) with (run others (step s1 a)).
  change (run (a :: others) s2) with (run others (step s2 a)).
  apply IH. destruct a; cbn [step beneficiaries]; by rewrite ?Hsame.
Qed.

Lemma during_wait_no_sleep (others acts : list Action) :
  Forall (λ a, ∀ ms, a ≠ sleep ms) acts → during_wait others acts = acts.
Proof.
  induction 1 as [|a acts Ha _ IH]; [done|]. cbn [during_wait]. rewrite IH.
  destruct a; try done. by destruct (Ha ms).
Qed.

Lemma during_wait_send (others : list Action) s :
  beneficiaries s ≠ [] →
  during_wait others (sendNotifications s) =
  [ setIsSending true; setSuccessMessage None; sleep 1500 ] ++ others ++
  map (λ b, console_log (sms_line (notificationDate s) b)) (beneficiaries s) ++
  [ setSuccessMessage
      (Some ("✅ " +:+ pretty (List.length (beneficiaries s)) +:+
             " notifications envoyées avec succès"));
    setIsSending false ].
Proof.
  intros Hsome. rewrite sendNotifications_some by done.
  cbn [app during_wait]. do 4 f_equal. apply during_wait_no_sleep.
  apply Forall_app. split; [|by repeat constructor].
  apply Forall_fmap, Forall_forall. by intros b _ ms.
Qed.

(** A send, with whatever else happens on the page while it waits:
    submitting the form, removing, clearing, uploading, a file read ending,
    changing the date, dismissing the banner.  From the first call of the send to the one
    before its last, the pending flag is up and the send button disabled;
    the last call lowers the flag.  The send does not touch the collection,
    which ends as the other events have made it, and it notifies the
    beneficiaries of the click, with the date of the click: the console
    lines and the count of the banner are those of the collection as it was
    then, even for records removed since. *)
Theorem sendNotifications_pending s (events : list PageEvent) :
  beneficiaries s ≠ [] →
  let others := concat (map page_actions events) in
  let acts := during_wait others (sendNotifications s) in
  ∃ during,
    trace acts s = during ++ [run acts s] ∧
    during ≠ [] ∧
    Forall (λ s', isSending s' = true ∧ sendDisabled s' = true) during ∧
    isSending (run acts s) = false ∧
    beneficiaries (run acts s) = beneficiaries (run others s) ∧
    console (run acts s) =
      console s ++ map (sms_line (notificationDate s)) (beneficiaries s) ∧
    successMessage (run acts s) =
      Some ("✅ " +:+ pretty (List.length (beneficiaries s)) +:+
            " notifications envoyées avec succès").
Proof.
  intros Hsome others acts. subst acts. rewrite during_wait_send by done.
  assert (Forall quiet others) as Hquiet.
  { subst others. apply Forall_concat, Forall_fmap, Forall_forall.
    intros e _. apply page_actions_quiet. }
  generalize dependent others. intros others Hquiet.
  set (pre := [setIsSending true; setSuccessMessage None; sleep 1500]).
  set (logs := map _ (beneficiaries s)).
  set (banner := setSuccessMessage _).
  set (s1 := run pre s). set (s2 := run others s1). set (s3 := run logs s2).
  destruct (trace_quiet others s1 Hquiet) as (Hwait & Hflag2 & Hconsole2).
  fold s2 in Hflag2, Hconsole2.
  assert (s3 = mkState (beneficiaries s2) (notificationDate s2) (isSending s2)
                       (successMessage s2) (alerts s2)
                       (console s2 ++ map (sms_line (notificationDate s)) (beneficiaries s)))
    as Hs3 by (subst s3 logs; apply run_logs).
  assert (∀ s', isSending s' = true → isSending s' = true ∧ sendDisabled s' = true)
    as Hup.
  { intros s' Hflag. unfold sendDisabled. by rewrite Hflag, orb_true_r. }
  exists (trace pre s ++ trace others s1 ++ trace logs s2 ++ [step s3 banner]).
  assert (run (pre ++ others ++ logs ++ [banner; setIsSending false]) s
          = step (step s3 banner) (setIsSending false)) as Hrun.
  { rewrite !run_app. reflexivity. }
  rewrite Hrun. split; [|split; [|split]].
  - rewrite !trace_app, <- !app_assoc. reflexivity.
  - discriminate.
  - rewrite !Forall_app. split; [|split; [|split]].
    + repeat constructor; by apply Hup.
    + eapply Forall_impl; [exact Hwait|]. intros s' Hs'. apply Hup. by rewrite Hs'.
    + subst logs. eapply Forall_impl; [apply trace_logs|].
      intros s' [_ Hs']. apply Hup. by rewrite Hs', Hflag2.
    + apply Forall_singleton, Hup. rewrite Hs3. cbn [step isSending]. by rewrite Hflag2.
  - rewrite Hs3. cbn [step isSending beneficiaries console successMessage].
    split; [done|]. split; [|split; [|done]].
    + subst s2. by apply beneficiaries_run.
    + by rewrite Hconsole2.
Qed.

Lemma sendNotifications_pending_witness :
  ∃ s', beneficiaries s' = [] ∧
        successMessage s' = Some "✅ 2 notifications envoyées avec succès".
Proof.
  destruct (sendNotifications_pending two_records [Manual (Remove 0); Manual Clear]
              ltac:(discriminate))
    as (during & _ & _ & _ & _ & Hcollection & _ & Hbanner).
  eexists. split; [exact Hcollection|exact Hbanner].
Defined.

Example send_while_removing :
  let s' := run (during_wait (page_actions (Manual (Remove 0)))
                             (sendNotifications two_records)) two_records in
  beneficiaries s' = [ mkBeneficiary "Sara" "0611" "B2" cash None ] ∧
  List.length (console s') = 2 ∧ isSending s' = false.
Proof. vm_compute. repeat split. Qed.

End Sending.

(** ** Reading a message *)

Section Message.

Implicit Types b : Beneficiary.
Implicit Types d s t sub : string.

(** Two suffixes of one string: one of them is a suffix of the other. *)
Lemma endsWith_app_inv s t sub :
  Js.endsWith (s +:+ t) sub = true →
  Js.endsWith t sub = true ∨ Js.endsWith sub t = true.
Proof.
  induction s as [|c s IH]; [by left|].
  rewrite app_cons. cbn [Js.endsWith]. intros [Heq|Hrest]%orb_true_iff; [|by apply IH].
  right. apply String.eqb_eq in Heq as <-. rewrite <- app_cons. apply endsWith_app_r.
Qed.

Lemma closing_lines_no_suffix :
  Js.endsWith (String Js.LF treasury_line) transfer_line = false ∧
  Js.endsWith transfer_line (String Js.LF treasury_line) = false ∧
  Js.endsWith (String Js.LF transfer_line) treasury_line = false ∧
  Js.endsWith treasury_line (String Js.LF transfer_line) = false.
Proof. repeat split; vm_compute; reflexivity. Qed.

Lemma includes_app_l s t sub :
  Js.includes t sub = true → Js.includes (s +:+ t) sub = true.
Proof.
  rewrite !includes_true_iff. intros (pre & post & ->).
  exists (s +:+ pre), post. by rewrite string_app_assoc.
Qed.

Lemma includes_app_l' s t sub :
  Js.includes s sub = true → Js.includes (s +:+ t) sub = true.
Proof.
  rewrite !includes_true_iff. intros (pre & post & ->).
  exists pre, (post +:+ t). by rewrite !string_app_assoc.
Qed.

Lemma includes_cons (c : ascii) t sub :
  Js.includes t sub = true → Js.includes (String c t) sub = true.
Proof. intros Ht. cbn [Js.includes]. by rewrite Ht, orb_true_r. Qed.

Lemma includes_head s t : Js.includes (s +:+ t) s = true.
Proof. apply includes_true_iff. by exists "", t. Qed.

(** The closing line tells the payment method: a message ends with the
    treasury line exactly for cash and with the transfer line exactly for a
    transfer, whatever the name, the reference and the date are; so a cash
    message and a transfer message are never the same text. *)
Theorem generateSMSMessage_tells_method d b :
  (Js.endsWith (generateSMSMessage d b) treasury_line = true ↔ paymentMethod b = cash) ∧
  (Js.endsWith (generateSMSMessage d b) transfer_line = true ↔
   paymentMethod b = transfer) ∧
  (∀ d' b', generateSMSMessage d b = generateSMSMessage d' b' →
            paymentMethod b = paymentMethod b').
Proof.
  assert (∀ d0 b0,
            Js.endsWith (generateSMSMessage d0 b0) treasury_line =
              match paymentMethod b0 with cash => true | transfer => false end ∧
            Js.endsWith (generateSMSMessage d0 b0) transfer_line =
              match paymentMethod b0 with cash => false | transfer => true end)
    as Hends.
  { destruct closing_lines_no_suffix as (H1 & H2 & H3 & H4).
    intros d0 b0. unfold generateSMSMessage. destruct (paymentMethod b0).
    - split; [apply endsWith_closing|].
      destruct (Js.endsWith (_ +:+ _) transfer_line) eqn:Hends; [|done].
      apply endsWith_app_inv in Hends as [?|?]; congruence.
    - split; [|apply endsWith_closing].
      destruct (Js.endsWith (_ +:+ _) treasury_line) eqn:Hends; [|done].
      apply endsWith_app_inv in Hends as [?|?]; congruence. }
  destruct (Hends d b) as [Ht Hv]. split; [|split].
  - rewrite Ht. by destruct (paymentMethod b).
  - rewrite Hv. by destruct (paymentMethod b).
  - intros d' b' Heq. destruct (Hends d' b') as [Ht' _].
    rewrite <- Heq, Ht in Ht'.
    by destruct (paymentMethod b), (paymentMethod b').
Qed.

(** The message opens with the greeting and the name, and carries the
    reference and the date as they are. *)
Theorem generateSMSMessage_carries d b :
  String.prefix ("Bonjour " +:+ name b) (generateSMSMessage d b) = true ∧
  Js.includes (generateSMSMessage d b) (name b) = true ∧
  Js.includes (generateSMSMessage d b) (reference b) = true ∧
  Js.includes (generateSMSMessage d b) d = true.
Proof.
  assert (String.prefix ("Bonjour " +:+ name b) (baseMessage d b) = true ∧
          Js.includes (baseMessage d b) (name b) = true ∧
          Js.includes (baseMessage d b) (reference b) = true ∧
          Js.includes (baseMessage d b) d = true) as (Hp & Hn & Hr & Hd).
  { unfold baseMessage. split; [|split; [|split]].
    - apply prefix_true_iff. eexists. by rewrite string_app_assoc.
    - apply includes_app_l, includes_head.
    - do 2 apply includes_app_l. apply includes_cons, includes_app_l, includes_head.
    - do 2 apply includes_app_l.
      apply includes_cons. do 3 apply includes_app_l. apply includes_head. }
  unfold generateSMSMessage.
  destruct (paymentMethod b);
    (split; [by apply prefix_app|]); repeat split; by apply includes_app_l'.
Qed.

End Message.
